(** * Portfolio API (main.py): a shallow embedding and its contract

    The service is a FastAPI application with five read-only routes that
    return literal data, a contact route that checks three fields, and a
    diagnostic route [/test] that probes an optional [database] module.

    Python [str] values are kept as their UTF-8 bytes ([string]); code-point
    slicing is written out in [str_slice_to].  The [response] dict of
    [test_database] is a [gmap] updated in place, and [try]/[except] is an
    exception monad threaded over that dict. *)

From stdpp Require Import gmap strings list.
From Stdlib Require Import ZArith Ascii String.

Open Scope string_scope.

(** ** Results of Python calls *)

(** A call either returns a value or raises an exception of type [E]. *)
Inductive result (E A : Type) : Type :=
| Return (a : A)
| Raise (e : E).
Arguments Return {E A} a.
Arguments Raise {E A} e.

(** ** Python strings *)

(** A byte [10xxxxxx] continues the code point started before it. *)
Definition is_continuation_byte (c : ascii) : bool :=
  let n := N_of_ascii c in ((128 <=? n) && (n <? 192))%N.

(** [s[:n]]: the first [n] code points of a well-formed UTF-8 string. *)
Fixpoint str_slice_to (n : nat) (s : string) : string :=
  match s with
  | EmptyString => EmptyString
  | String c r =>
      if is_continuation_byte c then String c (str_slice_to n r)
      else match n with
           | O => EmptyString
           | S n' => String c (str_slice_to n' r)
           end
  end.

(** Truthiness of a [str]: [not s] holds exactly for the empty string. *)
Definition str_truthy (s : string) : bool :=
  match s with
  | EmptyString => false
  | String _ _ => true
  end.

(** The characters [str.strip()] removes when called without argument,
    restricted to ASCII: space, tab, newline, vertical tab, form feed,
    carriage return and the four separators 0x1c-0x1f. *)
Definition is_space (c : ascii) : bool :=
  let n := N_of_ascii c in
  ((n =? 32) || ((9 <=? n) && (n <=? 13)) || ((28 <=? n) && (n <=? 31)))%N.

Fixpoint lstrip (s : string) : string :=
  match s with
  | EmptyString => EmptyString
  | String c r => if is_space c then lstrip r else s
  end.

Fixpoint rstrip (s : string) : string :=
  match s with
  | EmptyString => EmptyString
  | String c r =>
      match rstrip r with
      | EmptyString => if is_space c then EmptyString else String c EmptyString
      | r' => String c r'
      end
  end.

(** Trimming, as the specification's ContactMessage invariant words it;
    the source never calls it. *)
Definition strip (s : string) : string := rstrip (lstrip s).

(** ** JSON request bodies *)

#[warnings="-register-all"]
Inductive json : Type :=
| JNull
| JBool (b : bool)
| JNumber (n : Z)
| JString (s : string)
| JArray (items : list json)
| JObject (members : list (string * json)).

(** [json.loads] keeps the last of several members with one name. *)
Fixpoint members_get (k : string) (ms : list (string * json)) : option json :=
  match ms with
  | [] => None
  | (k', v) :: rest =>
      match members_get k rest with
      | Some v' => Some v'
      | None => if String.eqb k k' then Some v else None
      end
  end.

(** ** The models *)

(** class ContactMessage(BaseModel) *)
Record ContactMessage : Type := {
  cm_name : string;
  cm_email : string;
  cm_message : string;
}.

(** raise HTTPException(status_code=..., detail=...) *)
Record HTTPException : Type := {
  status_code : Z;
  detail : string;
}.

(** Values stored in the dicts the handlers return. *)
Inductive value : Type :=
| VNone
| VStr (s : string)
| VList (l : list string).

(** ** POST /api/contact *)

(** def submit_contact(msg: ContactMessage) *)
Definition submit_contact (msg : ContactMessage)
  : result HTTPException (gmap string value) :=
  if negb (str_truthy (cm_name msg))
     || negb (str_truthy (cm_email msg))
     || negb (str_truthy (cm_message msg))
  then Raise {| status_code := 400; detail := "All fields are required" |}
  else Return (<["name" := VStr (cm_name msg)]>
               (<["status" := VStr "received"]> ∅)).

(** ** pydantic's HttpUrl *)

Definition is_alpha (c : ascii) : bool :=
  let n := N_of_ascii c in
  (((65 <=? n) && (n <=? 90)) || ((97 <=? n) && (n <=? 122)))%N.

Definition is_digit (c : ascii) : bool :=
  let n := N_of_ascii c in ((48 <=? n) && (n <=? 57))%N.

Fixpoint str_mem (c : ascii) (set : string) : bool :=
  match set with
  | EmptyString => false
  | String c' r => Ascii.eqb c c' || str_mem c r
  end.

Fixpoint str_forallb (p : ascii -> bool) (s : string) : bool :=
  match s with
  | EmptyString => true
  | String c r => p c && str_forallb p r
  end.

(** The longest prefix whose characters satisfy [p], and the rest. *)
Fixpoint span (p : ascii -> bool) (s : string) : string * string :=
  match s with
  | EmptyString => (EmptyString, EmptyString)
  | String c r =>
      if p c then let '(a, b) := span p r in (String c a, b)
      else (EmptyString, s)
  end.

Fixpoint strip_prefix (p s : string) : option string :=
  match p, s with
  | EmptyString, _ => Some s
  | String a p', String b s' => if Ascii.eqb a b then strip_prefix p' s' else None
  | String _ _, EmptyString => None
  end.

Definition is_host_char (c : ascii) : bool :=
  is_alpha c || is_digit c || str_mem c "-.".

(** unreserved, sub-delims and the delimiters of RFC 3986 that may follow
    the authority. *)
Definition is_url_char (c : ascii) : bool :=
  is_alpha c || is_digit c || str_mem c "-._~!$&'()*+,;=:@/?%#".

(** Modelled from the spec: pydantic's [HttpUrl] type is imported, not
    defined, by main.py; the spec asks that such a field parses as a
    syntactically valid URL.  The check accepts scheme [http] or [https],
    [://], a non-empty host name, an optional port, and then nothing or a
    path, query or fragment of URL characters.  It is a sufficient condition:
    user-info and IP literals, which no literal of main.py uses, are left
    out. *)
Definition HttpUrl_valid (s : string) : bool :=
  let after_scheme :=
    match strip_prefix "https://" s with
    | Some r => Some r
    | None => strip_prefix "http://" s
    end in
  match after_scheme with
  | None => false
  | Some rest =>
      let '(host, after_host) := span is_host_char rest in
      let after_port :=
        match after_host with
        | String ":" r => snd (span is_digit r)
        | _ => after_host
        end in
      str_truthy host
      && match after_port with
         | EmptyString => true
         | String c _ => str_mem c "/?#"
         end
      && str_forallb is_url_char after_port
  end.

(** pydantic's ValidationError for a field that fails [HttpUrl]. *)
Inductive ValidationError : Type :=
| url_parsing (field input : string).

(** Validation of an [Optional[HttpUrl] = None] field. *)
Definition validate_optional_HttpUrl (field : string) (v : option string)
  : result ValidationError (option string) :=
  match v with
  | None => Return None
  | Some s => if HttpUrl_valid s then Return (Some s)
              else Raise (url_parsing field s)
  end.

Definition result_bind {E A B} (m : result E A) (k : A -> result E B)
  : result E B :=
  match m with
  | Return a => k a
  | Raise e => Raise e
  end.

Notation "'let*' x ':=' m 'in' k" := (result_bind m (fun x => k))
  (at level 10, x name, m at level 200, k at level 200).

(** Evaluates the elements of a list display left to right; the first one
    that raises ends the evaluation. *)
Fixpoint list_display {E A} (items : list (result E A)) : result E (list A) :=
  match items with
  | [] => Return []
  | m :: rest =>
      let* a := m in
      let* l := list_display rest in
      Return (a :: l)
  end.

(** class Profile(BaseModel) *)
Record Profile : Type := {
  profile_name : string;
  profile_title : string;
  profile_location : string;
  profile_bio : string;
  profile_avatar : option string;
  profile_socials : list (string * string);
}.

(** class Skill(BaseModel) *)
Record Skill : Type := {
  skill_name : string;
  skill_level : option string;
  skill_category : option string;
}.

(** class Experience(BaseModel) *)
Record Experience : Type := {
  exp_company : string;
  exp_role : string;
  exp_start : string;
  exp_end : string;
  exp_location : option string;
  exp_achievements : list string;
}.

(** class Project(BaseModel) *)
Record Project : Type := {
  project_name : string;
  project_description : string;
  project_tech : list string;
  project_repo : option string;
  project_live : option string;
  project_image : option string;
}.

(** Profile(...): the constructor validates the [HttpUrl] field. *)
Definition Profile_init (name title location bio : string)
    (avatar : option string) (socials : list (string * string))
  : result ValidationError Profile :=
  let* avatar' := validate_optional_HttpUrl "avatar" avatar in
  Return {| profile_name := name; profile_title := title;
            profile_location := location; profile_bio := bio;
            profile_avatar := avatar'; profile_socials := socials |}.

(** Project(...): the constructor validates the three [HttpUrl] fields in
    the order of their declaration. *)
Definition Project_init (name description : string) (tech : list string)
    (repo live image : option string)
  : result ValidationError Project :=
  let* repo' := validate_optional_HttpUrl "repo" repo in
  let* live' := validate_optional_HttpUrl "live" live in
  let* image' := validate_optional_HttpUrl "image" image in
  Return {| project_name := name; project_description := description;
            project_tech := tech; project_repo := repo';
            project_live := live'; project_image := image' |}.

(** ** The read-only handlers *)

(** def read_root() *)
Definition read_root : gmap string value :=
  <["message" := VStr "Portfolio Backend Running"]> ∅.

(** def get_profile() *)
Definition get_profile : result ValidationError Profile :=
  Profile_init
    "Your Name"
    "Software Engineer"
    "Remote / Worldwide"
    ("I craft scalable web apps and delightful developer experiences. "
     ++ "I specialize in React, TypeScript, Node.js, and cloud-native backends.")
    (Some "https://avatars.githubusercontent.com/u/9919?s=200&v=4")
    [ ("github", "https://github.com/");
      ("linkedin", "https://linkedin.com/in/");
      ("twitter", "https://twitter.com/");
      ("email", "mailto:you@example.com") ].

Definition Skill_init (name level category : string) : Skill :=
  {| skill_name := name; skill_level := Some level;
     skill_category := Some category |}.

(** def get_skills() *)
Definition get_skills : list Skill :=
  [ Skill_init "JavaScript" "Expert" "Frontend";
    Skill_init "TypeScript" "Advanced" "Frontend";
    Skill_init "React" "Advanced" "Frontend";
    Skill_init "Node.js" "Advanced" "Backend";
    Skill_init "Python" "Advanced" "Backend";
    Skill_init "FastAPI" "Advanced" "Backend";
    Skill_init "MongoDB" "Advanced" "Database";
    Skill_init "PostgreSQL" "Intermediate" "Database";
    Skill_init "Docker" "Intermediate" "DevOps";
    Skill_init "AWS" "Intermediate" "Cloud" ].

(** def get_experience() *)
Definition get_experience : list Experience :=
  [ {| exp_company := "Tech Co.";
       exp_role := "Senior Software Engineer";
       exp_start := "2022";
       exp_end := "Present";
       exp_location := Some "Remote";
       exp_achievements :=
         [ "Led migration to micro frontends across 5 products";
           "Improved build times by 40% with module federation";
           "Mentored 6 engineers and introduced better code review practices" ] |};
    {| exp_company := "Startup XYZ";
       exp_role := "Full-Stack Engineer";
       exp_start := "2020";
       exp_end := "2022";
       exp_location := Some "San Francisco, CA";
       exp_achievements :=
         [ "Shipped real-time collaboration features used by 50k+ users";
           "Designed FastAPI backend with WebSocket event system" ] |} ].

(** def get_projects() *)
Definition get_projects : result ValidationError (list Project) :=
  list_display
    [ Project_init
        "DevDash"
        "Developer productivity dashboard with integrations."
        ["React"; "Vite"; "Tailwind"; "FastAPI"]
        (Some "https://github.com/")
        (Some "https://example.com")
        (Some "https://images.unsplash.com/photo-1555066931-4365d14bab8c?q=80&w=1200&auto=format&fit=crop");
      Project_init
        "TaskFlow"
        "Team task management with real-time updates."
        ["TypeScript"; "React"; "MongoDB"; "Socket.io"]
        (Some "https://github.com/")
        (Some "https://example.com")
        (Some "https://images.unsplash.com/photo-1515879218367-8466d910aaa4?q=80&w=1200&auto=format&fit=crop");
      Project_init
        "API Kit"
        "Toolkit for building typed APIs quickly."
        ["Python"; "FastAPI"; "Pydantic"]
        (Some "https://github.com/")
        (Some "https://example.com")
        (Some "https://images.unsplash.com/photo-1518770660439-4636190af475?q=80&w=1200&auto=format&fit=crop") ].

(** ** GET /test *)

(** The classes the handler's [except] clauses tell apart: [ImportError]
    with its subclasses, the other subclasses of [Exception], and the
    exceptions outside [Exception] ([SystemExit], [KeyboardInterrupt],
    [GeneratorExit]). *)
Inductive exception_class : Type :=
| ImportErrorClass
| ExceptionClass
| BaseExceptionClass.

(** An exception: its class, and what [str(e)] does, which is to return a
    text or to raise in turn. *)
#[warnings="-register-all"]
Inductive exception : Type :=
| exception_of (cls : exception_class) (text : result exception string).

Definition exception_cls (e : exception) : exception_class :=
  match e with
  | exception_of cls _ => cls
  end.

(** str(e) *)
Definition exception_str (e : exception) : result exception string :=
  match e with
  | exception_of _ text => text
  end.

(** An [ImportError] whose [str] is [msg]. *)
Definition ImportError (msg : string) : exception :=
  exception_of ImportErrorClass (Return msg).

(** An instance of another subclass of [Exception] whose [str] is [msg]. *)
Definition Exception (msg : string) : exception :=
  exception_of ExceptionClass (Return msg).

(** isinstance(e, ImportError) *)
Definition isinstance_ImportError (e : exception) : bool :=
  match exception_cls e with
  | ImportErrorClass => true
  | ExceptionClass | BaseExceptionClass => false
  end.

(** isinstance(e, Exception) *)
Definition isinstance_Exception (e : exception) : bool :=
  match exception_cls e with
  | ImportErrorClass | ExceptionClass => true
  | BaseExceptionClass => false
  end.

(** What reading an attribute of an object does: the attribute is missing
    (an [AttributeError], which [hasattr] turns into [False]), or it has a
    value, or reading it raises an exception that is not an
    [AttributeError], which [hasattr] lets through. *)
Inductive attribute : Type :=
| AttributeMissing
| AttributeValue (v : value)
| AttributeRaises (e : exception).

(** The handle [db] of the [database] module, which is not part of main.py
    and so is a parameter of the world: what reading [db.name] does, and
    what [db.list_collection_names()] does, which is to return a list of
    names or to raise. *)
Record Database : Type := {
  db_name : attribute;
  list_collection_names : result exception (list string);
}.

(** What a request to [/test] can observe of its process: [os.environ], and
    the outcome of [from database import db] ([Return None] when [db] is
    [None]). *)
Record World : Type := {
  environ : gmap string string;
  import_db : result exception (option Database);
}.

(** os.getenv(key) *)
Definition getenv (w : World) (key : string) : option string :=
  environ w !! key.

(** Truthiness of an [Optional[str]]. *)
Definition optional_str_truthy (v : option string) : bool :=
  match v with
  | None => false
  | Some s => str_truthy s
  end.

(** Statements that update the [response] dict in place and may raise; the
    dict keeps the updates made before the raise. *)
Definition Stmt (A : Type) : Type :=
  gmap string value -> result exception A * gmap string value.

#[global] Instance Stmt_ret : MRet Stmt :=
  fun A a response => (Return a, response).

#[global] Instance Stmt_bind : MBind Stmt :=
  fun A B k m response =>
    match m response with
    | (Return a, response') => k a response'
    | (Raise e, response') => (Raise e, response')
    end.

(** Runs a call whose outcome the world fixes. *)
Definition call {A} (r : result exception A) : Stmt A :=
  fun response => (r, response).

(** [db.name if hasattr(db, 'name') else default]: both reads of the
    attribute behave alike. *)
Definition name_if_hasattr (db : Database) (default : value) : Stmt value :=
  match db_name db with
  | AttributeMissing => mret default
  | AttributeValue v => mret v
  | AttributeRaises e => call (Raise e)
  end.

(** response[key] = v *)
Definition setitem (key : string) (v : value) : Stmt unit :=
  fun response => (Return tt, <[key := v]> response).

(** try: body / except ...: the clauses are a partial function from the
    exception raised to the handler of the first clause that matches it.  An
    exception that no clause matches, or that a handler raises, leaves the
    statement. *)
Definition try_except (body : Stmt unit)
    (clauses : exception -> option (Stmt unit)) : Stmt unit :=
  fun response =>
    match body response with
    | (Return tt, response') => (Return tt, response')
    | (Raise e, response') =>
        match clauses e with
        | Some handler => handler response'
        | None => (Raise e, response')
        end
    end.

(** return response *)
Definition return_response : Stmt (gmap string value) :=
  fun response => (Return response, response).

(** def test_database() *)
Definition test_database (w : World) : result exception (gmap string value) :=
  let response : gmap string value :=
    <["collections" := VList []]>
    (<["connection_status" := VStr "Not Connected"]>
    (<["database_name" := VNone]>
    (<["database_url" := VNone]>
    (<["database" := VStr "❌ Not Available"]>
    (<["backend" := VStr "✅ Running"]> ∅))))) in
  fst ((try_except
          (db ← call (import_db w);
           match db with
           | Some db =>
               setitem "database" (VStr "✅ Available");;
               setitem "database_url" (VStr "✅ Configured");;
               name ← name_if_hasattr db (VStr "✅ Connected");
               setitem "database_name" name;;
               setitem "connection_status" (VStr "Connected");;
               try_except
                 (collections ← call (list_collection_names db);
                  setitem "collections" (VList (take 10 collections));;
                  setitem "database" (VStr "✅ Connected & Working"))
                 (fun e =>
                    if isinstance_Exception e then
                      Some (text ← call (exception_str e);
                            setitem "database"
                              (VStr ("⚠️  Connected but Error: "
                                     ++ str_slice_to 50 text)))
                    else None)
           | None =>
               setitem "database" (VStr "⚠️  Available but not initialized")
           end)
          (fun e =>
             if isinstance_ImportError e then
               Some (setitem "database"
                       (VStr "❌ Database module not found (run enable-database first)"))
             else if isinstance_Exception e then
               Some (text ← call (exception_str e);
                     setitem "database"
                       (VStr ("❌ Error: " ++ str_slice_to 50 text)))
             else None);;
        setitem "database_url"
          (VStr (if optional_str_truthy (getenv w "DATABASE_URL")
                 then "✅ Set" else "❌ Not Set"));;
        setitem "database_name"
          (VStr (if optional_str_truthy (getenv w "DATABASE_NAME")
                 then "✅ Set" else "❌ Not Set"));;
        return_response) response).

(** ** The application *)

(** The routes main.py registers on [app]. *)
Inductive request : Type :=
| GET_root
| GET_api_profile
| GET_api_skills
| GET_api_experience
| GET_api_projects
| POST_api_contact (body : json)
| GET_test.

(** The routes that take no input and probe nothing. *)
Definition is_read_only (r : request) : bool :=
  match r with
  | GET_root | GET_api_profile | GET_api_skills
  | GET_api_experience | GET_api_projects => true
  | POST_api_contact _ | GET_test => false
  end.

(** What a response carries before it is serialised.  [Detail d] is the body
    [{"detail": d}] of an HTTPException; [RequestErrors] is the error list
    of a request that failed validation, whose entries are not modelled. *)
Inductive content : Type :=
| Dict (d : gmap string value)
| OneProfile (p : Profile)
| Skills (l : list Skill)
| Experiences (l : list Experience)
| Projects (l : list Project)
| Detail (d : string)
| RequestErrors
| InternalServerError.

Record Response : Type := {
  status : Z;
  payload : content;
}.

Definition HTTP_200_OK : Z := 200.
Definition HTTP_422_UNPROCESSABLE_ENTITY : Z := 422.
Definition HTTP_500_INTERNAL_SERVER_ERROR : Z := 500.

(** A handler that returned. *)
Definition ok (c : content) : Response :=
  {| status := HTTP_200_OK; payload := c |}.

(** An exception no handler of the application catches. *)
Definition server_error : Response :=
  {| status := HTTP_500_INTERNAL_SERVER_ERROR; payload := InternalServerError |}.

(** FastAPI's answer to a body that does not validate against the
    parameter's model; main.py installs no handler of its own for it. *)
Definition request_validation_error : Response :=
  {| status := HTTP_422_UNPROCESSABLE_ENTITY; payload := RequestErrors |}.

(** FastAPI's answer to an HTTPException. *)
Definition http_exception (e : HTTPException) : Response :=
  {| status := status_code e; payload := Detail (detail e) |}.

(** The member [k] of a body, when the body is an object that has one. *)
Definition json_get (k : string) (body : json) : option json :=
  match body with
  | JObject ms => members_get k ms
  | _ => None
  end.

Section App.

(** What pydantic makes of a JSON value that is not a string when the
    field is declared [str]; it depends on the installed version, and no
    property below depends on it. *)
Variable str_of_other : json -> option string.

(** Validation of a required [str] field. *)
Definition validate_str (field : option json) : option string :=
  match field with
  | None => None
  | Some (JString s) => Some s
  | Some j => str_of_other j
  end.

(** Validation of the body against [ContactMessage]: the three fields are
    required. *)
Definition ContactMessage_validate (body : json) : option ContactMessage :=
  match body with
  | JObject _ =>
      name ← validate_str (json_get "name" body);
      email ← validate_str (json_get "email" body);
      message ← validate_str (json_get "message" body);
      Some {| cm_name := name; cm_email := email; cm_message := message |}
  | _ => None
  end.

(** Dispatch of a request to its handler, and FastAPI's conversion of the
    handler's outcome into a response. *)
Definition app (w : World) (r : request) : Response :=
  match r with
  | GET_root => ok (Dict read_root)
  | GET_api_profile =>
      match get_profile with
      | Return p => ok (OneProfile p)
      | Raise _ => server_error
      end
  | GET_api_skills => ok (Skills get_skills)
  | GET_api_experience => ok (Experiences get_experience)
  | GET_api_projects =>
      match get_projects with
      | Return ps => ok (Projects ps)
      | Raise _ => server_error
      end
  | POST_api_contact body =>
      match ContactMessage_validate body with
      | None => request_validation_error
      | Some msg =>
          match submit_contact msg with
          | Return d => ok (Dict d)
          | Raise e => http_exception e
          end
      end
  | GET_test =>
      match test_database w with
      | Return d => ok (Dict d)
      | Raise _ => server_error
      end
  end.

End App.

(** ** Reading the specification's words *)

(** The number written by a string of decimal digits. *)
Fixpoint digits_value (acc : N) (s : string) : option N :=
  match s with
  | EmptyString => Some acc
  | String c r =>
      if is_digit c
      then digits_value (acc * 10 + (N_of_ascii c - 48))%N r
      else None
  end.

(** The year a [start] string names, when it is a year. *)
Definition year (s : string) : option N :=
  match s with
  | EmptyString => None
  | _ => digits_value 0%N s
  end.

(** The period of [a] starts no earlier than the period of [b]. *)
Definition starts_no_earlier (a b : Experience) : Prop :=
  exists ya yb : N,
    year (exp_start a) = Some ya /\ year (exp_start b) = Some yb /\ (yb <= ya)%N.

(** The environment variable [key] is set to a value that is not empty. *)
Definition env_nonempty (w : World) (key : string) : Prop :=
  exists s : string, environ w !! key = Some s /\ s <> "".

(** Every URL field of a project that is present is a valid URL. *)
Definition Project_urls_valid (p : Project) : Prop :=
  forall u : string,
    project_repo p = Some u \/ project_live p = Some u \/ project_image p = Some u ->
    HttpUrl_valid u = true.

(** The exception the collaborator raises to the handler, if any.  The
    handler imports, then reads [db.name], then lists; the first of the
    three to raise ends the probe. *)
Definition collaborator_raises (w : World) : option exception :=
  match import_db w with
  | Raise e => Some e
  | Return None => None
  | Return (Some db) =>
      match db_name db with
      | AttributeRaises e => Some e
      | AttributeMissing | AttributeValue _ =>
          match list_collection_names db with
          | Raise e => Some e
          | Return _ => None
          end
      end
  end.

(** [e] is an instance of [Exception] and [str(e)] returns. *)
Definition catchable (e : exception) : bool :=
  isinstance_Exception e
  && match exception_str e with
     | Return _ => true
     | Raise _ => false
     end.

(** Whatever the collaborator raises to the handler is catchable. *)
Definition collaborator_catchable (w : World) : bool :=
  match collaborator_raises w with
  | None => true
  | Some e => catchable e
  end.

(** The handle whose listing the handler calls: the import gave one and
    reading its [name] did not raise. *)
Definition listed_handle (w : World) : option Database :=
  match import_db w with
  | Return (Some db) =>
      match db_name db with
      | AttributeRaises _ => None
      | AttributeMissing | AttributeValue _ => Some db
      end
  | _ => None
  end.

(** What the clauses of the outer [try] leave in [database] for [e]; [None]
    when [e] leaves the handler. *)
Definition outer_report (e : exception) : option string :=
  if isinstance_ImportError e then
    Some "❌ Database module not found (run enable-database first)"
  else if isinstance_Exception e then
    match exception_str e with
    | Return text => Some ("❌ Error: " ++ str_slice_to 50 text)
    | Raise _ => None
    end
  else None.

(** The value the handler leaves in [database], by the state of the
    collaborator; [None] when an exception leaves the handler. *)
Definition database_report (w : World) : option string :=
  match import_db w with
  | Raise e => outer_report e
  | Return None => Some "⚠️  Available but not initialized"
  | Return (Some db) =>
      match db_name db with
      | AttributeRaises e => outer_report e
      | AttributeMissing | AttributeValue _ =>
          match list_collection_names db with
          | Return _ => Some "✅ Connected & Working"
          | Raise e =>
              if isinstance_Exception e then
                match exception_str e with
                | Return text =>
                    Some ("⚠️  Connected but Error: " ++ str_slice_to 50 text)
                | Raise e' => outer_report e'
                end
              else None
          end
      end
  end.

(** The names the handler leaves in [collections]. *)
Definition collections_report (w : World) : list string :=
  match listed_handle w with
  | Some db =>
      match list_collection_names db with
      | Return names => take 10 names
      | Raise _ => []
      end
  | None => []
  end.

(** The value the handler leaves in [connection_status]. *)
Definition connection_report (w : World) : string :=
  match listed_handle w with
  | Some _ => "Connected"
  | None => "Not Connected"
  end.

(** A handle whose [name] attribute is absent or holds a value. *)
Definition attribute_of (v : option value) : attribute :=
  match v with
  | Some v => AttributeValue v
  | None => AttributeMissing
  end.

(** [len(s)] in code points. *)
Fixpoint str_len (s : string) : nat :=
  match s with
  | EmptyString => O
  | String c r => if is_continuation_byte c then str_len r else S (str_len r)
  end.

(** [s] does not start in the middle of a code point. *)
Definition starts_at_boundary (s : string) : Prop :=
  match s with
  | EmptyString => True
  | String c _ => is_continuation_byte c = false
  end.

(** The keys of the dict literal that [test_database] starts from. *)
Definition response_keys : gset string :=
  list_to_set
    [ "backend"; "database"; "database_url"; "database_name";
      "connection_status"; "collections" ].

(** The three fields the [ContactMessage] class declares. *)
Definition ContactMessage_fields : list string := ["name"; "email"; "message"].

(** * Properties *)

(** ** POST /api/contact *)

Lemma str_truthy_false (s : string) : str_truthy s = false <-> s = "".
Proof. destruct s; simpl; split; congruence. Qed.

Lemma str_truthy_true (s : string) : str_truthy s = true <-> s <> "".
Proof. destruct s; simpl; split; congruence. Qed.

(** The dict a successful contact request returns. *)
Lemma submit_contact_cases (msg : ContactMessage) :
  (submit_contact msg
     = Raise {| status_code := 400; detail := "All fields are required" |}
   /\ (cm_name msg = "" \/ cm_email msg = "" \/ cm_message msg = ""))
  \/ (submit_contact msg
        = Return (<["name" := VStr (cm_name msg)]> (<["status" := VStr "received"]> ∅))
      /\ cm_name msg <> "" /\ cm_email msg <> "" /\ cm_message msg <> "").
Proof.
  unfold submit_contact.
  destruct (str_truthy (cm_name msg)) eqn:Hn;
    destruct (str_truthy (cm_email msg)) eqn:He;
    destruct (str_truthy (cm_message msg)) eqn:Hm; simpl;
    rewrite ?str_truthy_false, ?str_truthy_true in *; auto 10.
Qed.

(** C1, as stated, fails: a name of one space is empty after trimming, yet
    the request is accepted and the name echoed. *)
Lemma submit_contact_accepts_blank_name :
  let msg := {| cm_name := " "; cm_email := "a@example.com"; cm_message := "hi" |} in
  strip (cm_name msg) = ""
  /\ submit_contact msg
     = Return (<["name" := VStr " "]> (<["status" := VStr "received"]> ∅))
  /\ submit_contact msg
     <> Raise {| status_code := 400; detail := "All fields are required" |}.
Proof.
  cbv zeta. cbv [submit_contact str_truthy cm_name cm_email cm_message negb orb].
  split; [reflexivity | split; [reflexivity | discriminate]].
Qed.

(** C1 (amended): the contact handler raises the HTTPException with status
    400 and detail "All fields are required" if and only if at least one of
    name, email, message is the empty string; the fields are not trimmed. *)
Theorem submit_contact_rejects_iff_empty (msg : ContactMessage) :
  submit_contact msg
    = Raise {| status_code := 400; detail := "All fields are required" |}
  <-> cm_name msg = "" \/ cm_email msg = "" \/ cm_message msg = "".
Proof.
  destruct (submit_contact_cases msg) as [[Hr He] | [Hr (Hn & He & Hm)]];
    rewrite Hr; split; try done.
  intros [? | [? | ?]]; contradiction.
Qed.

(** C2: a message whose three fields are non-empty is acknowledged with
    exactly [{status: "received", name: <the name>}]; the handler is a
    function of the message alone, and the route answers 200 with that dict
    whatever the state of the process. *)
Theorem submit_contact_acknowledges (msg : ContactMessage) :
  cm_name msg <> "" -> cm_email msg <> "" -> cm_message msg <> "" ->
  let ack : gmap string value :=
    <["name" := VStr (cm_name msg)]> (<["status" := VStr "received"]> ∅) in
  submit_contact msg = Return ack
  /\ forall (str_of_other : json -> option string) (w : World) (body : json),
       ContactMessage_validate str_of_other body = Some msg ->
       app str_of_other w (POST_api_contact body)
       = {| status := 200; payload := Dict ack |}.
Proof.
  intros Hn He Hm ack.
  assert (Hr : submit_contact msg = Return ack).
  { destruct (submit_contact_cases msg) as [[_ Hempty] | [Hr _]]; [| exact Hr].
    destruct Hempty as [? | [? | ?]]; contradiction. }
  split; [exact Hr |].
  intros f w body Hv. simpl. rewrite Hv, Hr. reflexivity.
Qed.

Lemma submit_contact_acknowledges_Alice :
  let msg := {| cm_name := "Alice"; cm_email := "a@example.com"; cm_message := "hi" |} in
  let ack : gmap string value :=
    <["name" := VStr "Alice"]> (<["status" := VStr "received"]> ∅) in
  submit_contact msg = Return ack
  /\ forall (str_of_other : json -> option string) (w : World) (body : json),
       ContactMessage_validate str_of_other body = Some msg ->
       app str_of_other w (POST_api_contact body)
       = {| status := 200; payload := Dict ack |}.
Proof.
  apply (submit_contact_acknowledges
           {| cm_name := "Alice"; cm_email := "a@example.com"; cm_message := "hi" |});
    simpl; discriminate.
Defined.

(** C3, as stated, fails: a body with name and email but no message is
    answered with status 422, not 400. *)
Lemma contact_without_message_is_422 :
  let body := JObject [("name", JString "Alice"); ("email", JString "a@example.com")] in
  let w := {| environ := ∅; import_db := Raise (ImportError "No module named 'database'") |} in
  json_get "message" body = None
  /\ status (app (fun _ => None) w (POST_api_contact body)) = 422%Z
  /\ status (app (fun _ => None) w (POST_api_contact body)) <> 400%Z.
Proof.
  cbv zeta. split; [reflexivity | split; [reflexivity | discriminate]].
Qed.

(** C3 (amended): a contact request whose body has no message field never
    reaches the handler; the framework answers it with status 422 and the
    list of validation errors. *)
Theorem contact_missing_message_unprocessable
    (str_of_other : json -> option string) (w : World) (body : json) :
  json_get "message" body = None ->
  app str_of_other w (POST_api_contact body)
  = {| status := 422; payload := RequestErrors |}.
Proof.
  intros Hmissing. unfold app, ContactMessage_validate.
  destruct body; try reflexivity.
  rewrite Hmissing.
  destruct (validate_str str_of_other (json_get "name" (JObject members)));
    [| reflexivity].
  destruct (validate_str str_of_other (json_get "email" (JObject members)));
    reflexivity.
Qed.

Lemma contact_missing_message_unprocessable_example :
  app (fun _ => None)
      {| environ := ∅; import_db := Return None |}
      (POST_api_contact (JObject [("name", JString "Alice"); ("email", JString "a@example.com")]))
  = {| status := 422; payload := RequestErrors |}.
Proof.
  apply contact_missing_message_unprocessable. reflexivity.
Defined.


(** ** GET /test *)

(** One level of an exception: its class, and whether [str] returns. *)
Ltac destruct_exception e :=
  let cls := fresh "cls" in
  let msg := fresh "msg" in
  let e' := fresh "e" in
  destruct e as [cls [msg | e']]; destruct cls.

Ltac run_test_database :=
  cbv [test_database try_except mbind mret Stmt_bind Stmt_ret call setitem
       name_if_hasattr return_response fst getenv environ import_db
       list_collection_names db_name isinstance_ImportError
       isinstance_Exception exception_cls exception_str
       database_report outer_report collections_report connection_report
       listed_handle collaborator_catchable collaborator_raises catchable
       andb].

Ltac solve_outcome :=
  run_test_database;
  first
    [ split; reflexivity
    | eexists; eexists;
      split; [reflexivity |];
      split; [reflexivity |];
      split;
      [ rewrite !dom_insert_L, dom_empty_L; unfold response_keys; simpl;
        set_solver
      | repeat split; vm_compute; reflexivity ] ].

(** Every outcome of the handler.  When it returns, the two environment
    checks are the last writes to the dict, and the fields below them are
    the ones the reports name; it raises only when the collaborator raised
    something that is not catchable. *)
Lemma test_database_outcome (w : World) :
  match test_database w with
  | Return response =>
      exists (before_env : gmap string value) (description : string),
        response
        = <["database_name" :=
             VStr (if optional_str_truthy (getenv w "DATABASE_NAME")
                   then "✅ Set" else "❌ Not Set")]>
          (<["database_url" :=
              VStr (if optional_str_truthy (getenv w "DATABASE_URL")
                    then "✅ Set" else "❌ Not Set")]> before_env)
        /\ database_report w = Some description
        /\ dom before_env = response_keys
        /\ before_env !! "backend" = Some (VStr "✅ Running")
        /\ before_env !! "database" = Some (VStr description)
        /\ before_env !! "collections" = Some (VList (collections_report w))
        /\ before_env !! "connection_status" = Some (VStr (connection_report w))
  | Raise _ => collaborator_catchable w = false /\ database_report w = None
  end.
Proof.
  destruct w as [env [[[name listing] |] | e]].
  - destruct name as [| name | e].
    + destruct listing as [names | e]; [solve_outcome |].
      destruct e as [cls [msg | e]]; destruct cls; try solve_outcome;
        destruct_exception e; solve_outcome.
    + destruct listing as [names | e]; [solve_outcome |].
      destruct e as [cls [msg | e]]; destruct cls; try solve_outcome;
        destruct_exception e; solve_outcome.
    + destruct_exception e; solve_outcome.
  - solve_outcome.
  - destruct_exception e; solve_outcome.
Qed.

(** What holds of every response holds of the response in hand. *)
Lemma test_database_response (w : World) (response : gmap string value) :
  test_database w = Return response ->
  exists (before_env : gmap string value) (description : string),
    response
    = <["database_name" :=
         VStr (if optional_str_truthy (getenv w "DATABASE_NAME")
               then "✅ Set" else "❌ Not Set")]>
      (<["database_url" :=
          VStr (if optional_str_truthy (getenv w "DATABASE_URL")
                then "✅ Set" else "❌ Not Set")]> before_env)
    /\ database_report w = Some description
    /\ dom before_env = response_keys
    /\ before_env !! "backend" = Some (VStr "✅ Running")
    /\ before_env !! "database" = Some (VStr description)
    /\ before_env !! "collections" = Some (VList (collections_report w))
    /\ before_env !! "connection_status" = Some (VStr (connection_report w)).
Proof.
  intros Hrun. pose proof (test_database_outcome w) as Hout.
  rewrite Hrun in Hout. exact Hout.
Qed.

(** The handler returns when the collaborator raises nothing that is not
    catchable. *)
Lemma test_database_returns (w : World) :
  collaborator_catchable w = true ->
  exists response : gmap string value, test_database w = Return response.
Proof.
  intros Hcatch. pose proof (test_database_outcome w) as Hout.
  destruct (test_database w) as [response | e]; [eauto |].
  destruct Hout as [Hout _]. congruence.
Qed.




(** C5, as stated, fails: with DATABASE_URL set to the empty string the
    variable is set, yet the response reports "❌ Not Set". *)
Lemma test_database_empty_url_not_set :
  let w := {| environ := <["DATABASE_URL" := ""]> ∅;
              import_db := Raise (ImportError "No module named 'database'") |} in
  is_Some (environ w !! "DATABASE_URL")
  /\ exists response : gmap string value,
       test_database w = Return response
       /\ response !! "database_url" = Some (VStr "❌ Not Set").
Proof.
  cbv zeta. split.
  - cbn [environ]. rewrite lookup_insert_eq. eexists. reflexivity.
  - match goal with
    | |- context [test_database ?w] =>
        destruct (test_database_returns w eq_refl) as [response Hrun];
        destruct (test_database_response w response Hrun) as (r0 & d & -> & _)
    end.
    eexists. split; [exact Hrun |].
    rewrite lookup_insert_ne by discriminate. rewrite lookup_insert_eq.
    unfold getenv. cbn [environ]. rewrite lookup_insert_eq. reflexivity.
Qed.

Lemma optional_str_truthy_spec (w : World) (key : string) :
  optional_str_truthy (getenv w key) = true <-> env_nonempty w key.
Proof.
  unfold optional_str_truthy, getenv, env_nonempty.
  destruct (environ w !! key) as [s |].
  - rewrite str_truthy_true. split.
    + intros Hs. exists s. auto.
    + intros (s' & Heq & Hs'). congruence.
  - split; [discriminate | intros (s' & Heq & _); discriminate].
Qed.

(** C5 (amended): in every response of the diagnostic route, [database_url]
    is "✅ Set" exactly when DATABASE_URL is set to a non-empty value and
    "❌ Not Set" otherwise, and likewise [database_name] for DATABASE_NAME,
    whatever the state of the database collaborator; the route gives no
    response only when the collaborator raised what the handler cannot
    catch. *)
Theorem test_database_env_fields (w : World) :
  match test_database w with
  | Return response =>
      (env_nonempty w "DATABASE_URL" ->
       response !! "database_url" = Some (VStr "✅ Set"))
      /\ (~ env_nonempty w "DATABASE_URL" ->
          response !! "database_url" = Some (VStr "❌ Not Set"))
      /\ (env_nonempty w "DATABASE_NAME" ->
          response !! "database_name" = Some (VStr "✅ Set"))
      /\ (~ env_nonempty w "DATABASE_NAME" ->
          response !! "database_name" = Some (VStr "❌ Not Set"))
  | Raise _ => collaborator_catchable w = false
  end.
Proof.
  pose proof (test_database_outcome w) as Hout.
  destruct (test_database w) as [response | e] eqn:Hrun; [| apply Hout].
  destruct Hout as (r0 & d & -> & _).
  rewrite (lookup_insert_ne _ "database_name" "database_url") by discriminate.
  rewrite !lookup_insert_eq.
  pose proof (optional_str_truthy_spec w "DATABASE_URL") as Hurl.
  pose proof (optional_str_truthy_spec w "DATABASE_NAME") as Hname.
  destruct (optional_str_truthy (getenv w "DATABASE_URL"));
    destruct (optional_str_truthy (getenv w "DATABASE_NAME"));
    repeat split; intros H; try reflexivity;
    solve [ exfalso; apply H; tauto
          | apply Hurl in H; discriminate
          | apply Hname in H; discriminate ].
Qed.

Lemma test_database_env_fields_example :
  let w := {| environ := <["DATABASE_URL" := "mongodb://localhost:27017"]> ∅;
              import_db := Return None |} in
  exists response : gmap string value,
    test_database w = Return response
    /\ response !! "database_url" = Some (VStr "✅ Set")
    /\ response !! "database_name" = Some (VStr "❌ Not Set").
Proof.
  cbv zeta.
  match goal with
  | |- context [test_database ?w] =>
      pose proof (test_database_env_fields w) as Hfields;
      destruct (test_database w) as [response | e];
      [ destruct Hfields as (Hurl & _ & _ & Hname) | discriminate Hfields ]
  end.
  exists response. split; [reflexivity |]. split.
  - apply Hurl. eexists. cbn [environ]. rewrite lookup_insert_eq.
    split; [reflexivity | discriminate].
  - apply Hname. intros (s & Hs & _). cbn [environ] in Hs.
    rewrite lookup_insert_ne in Hs by discriminate.
    rewrite lookup_empty in Hs. discriminate.
Defined.

(** C10: in every response of the diagnostic route, [collections] is a list
    of at most 10 names: the first 10 names of the listing when the handler
    calls it and it returns, and the empty list in every other case; the
    route gives no response only when the collaborator raised what the
    handler cannot catch. *)
Theorem test_database_collections_at_most_10 (w : World) :
  match test_database w with
  | Return response =>
      exists l : list string,
        response !! "collections" = Some (VList l)
        /\ List.length l <= 10
        /\ l = collections_report w
  | Raise _ => collaborator_catchable w = false
  end.
Proof.
  pose proof (test_database_outcome w) as Hout.
  destruct (test_database w) as [response | e] eqn:Hrun; [| apply Hout].
  destruct Hout as (r0 & d & -> & _ & _ & _ & _ & Hcollections & _).
  exists (collections_report w).
  rewrite !lookup_insert_ne by discriminate.
  split; [exact Hcollections |].
  split; [| reflexivity].
  unfold collections_report.
  destruct (listed_handle w) as [db |]; simpl; try lia.
  destruct (list_collection_names db) as [names | e]; simpl; try lia.
  rewrite length_take. lia.
Qed.

(** ** The fixed data *)

(** C6: the experience route always answers 200 with the same list, and the
    list is ordered most-recent-first: of two neighbours, the period of the
    earlier element starts no earlier than the period of the later one. *)
Theorem get_experience_most_recent_first :
  (forall (str_of_other : json -> option string) (w : World),
     app str_of_other w GET_api_experience
     = {| status := 200; payload := Experiences get_experience |})
  /\ (forall (i : nat) (a b : Experience),
        get_experience !! i = Some a ->
        get_experience !! S i = Some b ->
        starts_no_earlier a b).
Proof.
  split; [reflexivity |].
  intros i a b Ha Hb.
  destruct i as [| [| i]]; simpl in Ha, Hb; try discriminate.
  injection Ha as <-. injection Hb as <-.
  exists 2022%N, 2020%N. repeat split. vm_compute. discriminate.
Qed.

Lemma get_experience_most_recent_first_head :
  exists a b : Experience,
    get_experience !! 0 = Some a /\ get_experience !! 1 = Some b
    /\ exp_start a = "2022" /\ exp_start b = "2020"
    /\ starts_no_earlier a b.
Proof.
  eexists. eexists.
  split; [reflexivity |]. split; [reflexivity |].
  split; [reflexivity |]. split; [reflexivity |].
  apply (proj2 get_experience_most_recent_first 0); reflexivity.
Defined.

(** C7: a read-only route answers with the same response whatever the state
    of the process it runs in, so any serialisation of two calls to one
    route gives the same bytes. *)
Theorem read_only_routes_deterministic
    {Bytes : Type} (serialise : Response -> Bytes)
    (str_of_other : json -> option string) (w1 w2 : World) (r : request) :
  is_read_only r = true ->
  serialise (app str_of_other w1 r) = serialise (app str_of_other w2 r).
Proof.
  intros Hro. destruct r; try discriminate Hro; reflexivity.
Qed.

Lemma read_only_routes_deterministic_profile :
  app (fun _ => None)
      {| environ := ∅; import_db := Return None |} GET_api_profile
  = app (fun _ => None)
      {| environ := <["DATABASE_URL" := "x"]> ∅;
         import_db := Raise (Exception "down") |} GET_api_profile.
Proof.
  apply (read_only_routes_deterministic (fun response => response)).
  reflexivity.
Defined.

Lemma validate_optional_HttpUrl_valid (field : string) (v v' : option string) :
  validate_optional_HttpUrl field v = Return v' ->
  forall u : string, v' = Some u -> HttpUrl_valid u = true.
Proof.
  unfold validate_optional_HttpUrl. intros Hv u ->.
  destruct v as [s |]; [| discriminate].
  destruct (HttpUrl_valid s) eqn:Hs; [| discriminate].
  injection Hv as ->. exact Hs.
Qed.

(** A profile that was constructed carries a valid avatar, if any. *)
Lemma Profile_init_avatar_valid name title location bio avatar socials p :
  Profile_init name title location bio avatar socials = Return p ->
  forall u : string, profile_avatar p = Some u -> HttpUrl_valid u = true.
Proof.
  unfold Profile_init, result_bind. intros Hp.
  destruct (validate_optional_HttpUrl "avatar" avatar) as [a |] eqn:Ha;
    [| discriminate].
  injection Hp as <-. simpl.
  exact (validate_optional_HttpUrl_valid _ _ _ Ha).
Qed.

(** A project that was constructed carries valid URLs only. *)
Lemma Project_init_urls_valid name description tech repo live image p :
  Project_init name description tech repo live image = Return p ->
  Project_urls_valid p.
Proof.
  unfold Project_init, result_bind. intros Hp.
  destruct (validate_optional_HttpUrl "repo" repo) as [r |] eqn:Hr;
    [| discriminate].
  destruct (validate_optional_HttpUrl "live" live) as [l |] eqn:Hl;
    [| discriminate].
  destruct (validate_optional_HttpUrl "image" image) as [i |] eqn:Hi;
    [| discriminate].
  injection Hp as <-. intros u [Hu | [Hu | Hu]]; simpl in Hu.
  - exact (validate_optional_HttpUrl_valid _ _ _ Hr u Hu).
  - exact (validate_optional_HttpUrl_valid _ _ _ Hl u Hu).
  - exact (validate_optional_HttpUrl_valid _ _ _ Hi u Hu).
Qed.

(** What holds of every element that is constructed holds of the list. *)
Lemma list_display_Forall {E A} (P : A -> Prop) (items : list (result E A)) :
  Forall (fun m => forall a, m = Return a -> P a) items ->
  forall l : list A, list_display items = Return l -> Forall P l.
Proof.
  induction 1 as [| m rest Hm _ IH]; simpl; intros l Hl.
  - injection Hl as <-. constructor.
  - unfold result_bind in Hl. destruct m as [a |]; [| discriminate].
    destruct (list_display rest) as [l' |]; [| discriminate].
    injection Hl as <-. constructor; [apply Hm; reflexivity | apply IH; reflexivity].
Qed.

(** C8: the profile route's avatar, which is present, is a valid URL, and
    every project of the projects route has valid URLs in repo, live and
    image wherever one is present. *)
Theorem fixed_data_urls_valid :
  (exists p : Profile,
     get_profile = Return p
     /\ forall u : string, profile_avatar p = Some u -> HttpUrl_valid u = true)
  /\ (exists ps : list Project,
        get_projects = Return ps /\ Forall Project_urls_valid ps).
Proof.
  split.
  - destruct get_profile as [p | e] eqn:Hp; [| vm_compute in Hp; discriminate].
    exists p. split; [reflexivity |].
    exact (Profile_init_avatar_valid _ _ _ _ _ _ _ Hp).
  - destruct get_projects as [ps | e] eqn:Hps; [| vm_compute in Hps; discriminate].
    exists ps. split; [reflexivity |].
    refine (list_display_Forall _ _ _ _ Hps).
    repeat constructor; intros p Hp; exact (Project_init_urls_valid _ _ _ _ _ _ _ Hp).
Qed.

(** C9: every project of the projects route names at least one
    technology. *)
Theorem get_projects_tech_nonempty :
  exists ps : list Project,
    get_projects = Return ps /\ Forall (fun p => project_tech p <> []) ps.
Proof.
  eexists. split; [vm_compute; reflexivity |].
  repeat constructor; discriminate.
Qed.


(** * Further properties of the handlers *)

(** ** The diagnostic route *)

(** X1: every dict the handler returns has exactly the six keys of the
    literal it starts from: no path adds or removes one; it returns none
    only when the collaborator raised what it cannot catch. *)
Theorem test_database_keys (w : World) :
  match test_database w with
  | Return response => dom response = response_keys
  | Raise _ => collaborator_catchable w = false
  end.
Proof.
  pose proof (test_database_outcome w) as Hout.
  destruct (test_database w) as [response | e]; [| apply Hout].
  destruct Hout as (r0 & d & -> & _ & Hdom & _).
  rewrite !dom_insert_L, Hdom. unfold response_keys. simpl. set_solver.
Qed.

(** X2: in every response, [connection_status] is "Connected" exactly when
    the import gave a handle that is not None and reading its name did not
    raise, also when the listing then raises; in every other case it keeps
    "Not Connected". *)
Theorem test_database_connection_status (w : World) :
  match test_database w with
  | Return response =>
      response !! "connection_status"
      = Some (VStr (match listed_handle w with
                    | Some _ => "Connected"
                    | None => "Not Connected"
                    end))
  | Raise _ => collaborator_catchable w = false
  end.
Proof.
  pose proof (test_database_outcome w) as Hout.
  destruct (test_database w) as [response | e]; [| apply Hout].
  destruct Hout as (r0 & d & -> & _ & _ & _ & _ & _ & Hstatus).
  rewrite !lookup_insert_ne by discriminate. exact Hstatus.
Qed.

Lemma outer_report_not_working (e : exception) :
  outer_report e <> Some "✅ Connected & Working".
Proof.
  destruct e as [cls [msg | e']]; destruct cls; cbv [outer_report
    isinstance_ImportError isinstance_Exception exception_cls exception_str];
    discriminate.
Qed.

Lemma database_report_working (w : World) :
  database_report w = Some "✅ Connected & Working"
  <-> exists (db : Database) (names : list string),
        listed_handle w = Some db /\ list_collection_names db = Return names.
Proof.
  unfold database_report, listed_handle.
  destruct (import_db w) as [[db |] | e].
  - destruct (db_name db) as [| name | e].
    + destruct (list_collection_names db) as [names | e] eqn:Hlist.
      * split; [eauto | reflexivity].
      * split.
        -- destruct (isinstance_Exception e); [| discriminate].
           destruct (exception_str e) as [msg | e'];
             [discriminate | intros H; destruct (outer_report_not_working _ H)].
        -- intros (db' & names & Hdb & Hl). injection Hdb as <-. congruence.
    + destruct (list_collection_names db) as [names | e] eqn:Hlist.
      * split; [eauto | reflexivity].
      * split.
        -- destruct (isinstance_Exception e); [| discriminate].
           destruct (exception_str e) as [msg | e'];
             [discriminate | intros H; destruct (outer_report_not_working _ H)].
        -- intros (db' & names & Hdb & Hl). injection Hdb as <-. congruence.
    + split; [intros H; destruct (outer_report_not_working _ H) |].
      intros (db' & names & Hdb & _). discriminate.
  - split; [discriminate | intros (db' & names & H & _); discriminate].
  - split; [intros H; destruct (outer_report_not_working _ H) |].
    intros (db' & names & H & _). discriminate.
Qed.

(** X3: in every response, [database] reads "✅ Connected & Working"
    exactly when the handler called the listing (the import gave a handle
    and reading its name did not raise) and the listing returned; no failure
    path produces that string. *)
Theorem test_database_working_iff (w : World) :
  match test_database w with
  | Return response =>
      response !! "database" = Some (VStr "✅ Connected & Working")
      <-> exists (db : Database) (names : list string),
            listed_handle w = Some db
            /\ list_collection_names db = Return names
  | Raise _ => collaborator_catchable w = false
  end.
Proof.
  pose proof (test_database_outcome w) as Hout.
  destruct (test_database w) as [response | e]; [| apply Hout].
  destruct Hout as (r0 & d & -> & Hreport & _ & _ & Hdatabase & _).
  rewrite !lookup_insert_ne by discriminate. rewrite Hdatabase.
  rewrite <- database_report_working, Hreport.
  split; congruence.
Qed.

(** X4: when reading [db.name] does not raise, what it gives never reaches
    the caller: the value written from it is overwritten by the environment
    check, so two handles that differ only in the value, or the absence, of
    [name] have the same outcome. *)
Theorem test_database_hides_db_name
    (env : gmap string string) (name1 name2 : option value)
    (listing : result exception (list string)) :
  test_database
    {| environ := env;
       import_db := Return (Some {| db_name := attribute_of name1;
                                    list_collection_names := listing |}) |}
  = test_database
      {| environ := env;
         import_db := Return (Some {| db_name := attribute_of name2;
                                      list_collection_names := listing |}) |}.
Proof.
  destruct name1 as [v1 |], name2 as [v2 |];
    (destruct listing as [names | e];
     [| destruct e as [cls [msg | e]]; destruct cls;
        try destruct_exception e ]);
    cbv [attribute_of]; run_test_database;
    try reflexivity;
    f_equal; apply map_eq; intros k;
    rewrite !lookup_insert; repeat case_decide; congruence.
Qed.

(** The reports of the probe depend on the collaborator only. *)
Lemma reports_ignore_environ (w1 w2 : World) :
  import_db w1 = import_db w2 ->
  database_report w1 = database_report w2
  /\ collections_report w1 = collections_report w2
  /\ connection_report w1 = connection_report w2.
Proof.
  unfold database_report, collections_report, connection_report, listed_handle.
  intros ->. repeat split.
Qed.

(** X5: apart from [database_url] and [database_name], the outcome does not
    depend on the environment: two worlds with the same collaborator both
    return or both raise, and two responses agree on every other key. *)
Theorem test_database_probe_ignores_environ (w1 w2 : World) :
  import_db w1 = import_db w2 ->
  match test_database w1, test_database w2 with
  | Return r1, Return r2 =>
      forall k : string,
        k <> "database_url" -> k <> "database_name" -> r1 !! k = r2 !! k
  | Raise _, Raise _ => True
  | _, _ => False
  end.
Proof.
  intros Himp.
  destruct (reports_ignore_environ w1 w2 Himp) as (Hd & Hc & Hs).
  pose proof (test_database_outcome w1) as H1.
  pose proof (test_database_outcome w2) as H2.
  destruct (test_database w1) as [r1 | e1], (test_database w2) as [r2 | e2].
  - destruct H1 as (b1 & d1 & -> & Hr1 & Hdom1 & Hb1 & Hd1 & Hc1 & Hs1).
    destruct H2 as (b2 & d2 & -> & Hr2 & Hdom2 & Hb2 & Hd2 & Hc2 & Hs2).
    assert (d1 = d2) as <- by congruence.
    intros k Hurl Hname. rewrite !lookup_insert_ne by congruence.
    destruct (decide (k ∈ response_keys)) as [Hin | Hout].
    + unfold response_keys in Hin. simpl in Hin.
      rewrite !elem_of_union, !elem_of_singleton in Hin.
      destruct Hin as [-> | [-> | [-> | [-> | [-> | [-> | Hin]]]]]];
        try congruence.
      exfalso. revert Hin. apply not_elem_of_empty.
    + rewrite <- Hdom1 in Hout. apply not_elem_of_dom in Hout.
      rewrite Hout. symmetry. apply not_elem_of_dom.
      rewrite Hdom2, <- Hdom1. apply not_elem_of_dom. exact Hout.
  - destruct H1 as (b1 & d1 & _ & Hr1 & _). destruct H2 as [_ Hr2]. congruence.
  - destruct H2 as (b2 & d2 & _ & Hr2 & _). destruct H1 as [_ Hr1]. congruence.
  - exact I.
Qed.

Lemma test_database_probe_ignores_environ_example :
  exists r1 r2 : gmap string value,
    test_database {| environ := ∅; import_db := Return None |} = Return r1
    /\ test_database {| environ := <["DATABASE_URL" := "mongodb://db"]> ∅;
                        import_db := Return None |} = Return r2
    /\ r1 !! "database" = r2 !! "database".
Proof.
  match goal with
  | |- context [test_database ?w1 = Return _ /\ test_database ?w2 = Return _ /\ _] =>
      pose proof (test_database_probe_ignores_environ w1 w2 eq_refl) as Hk;
      destruct (test_database_returns w1 eq_refl) as [r1 H1];
      destruct (test_database_returns w2 eq_refl) as [r2 H2];
      rewrite H1, H2 in Hk
  end.
  exists r1, r2. split; [exact H1 |]. split; [exact H2 |].
  apply Hk; discriminate.
Defined.

(** ** Slicing of error messages and listings *)

Lemma str_slice_to_split (n : nat) (s : string) :
  exists rest : string, s = str_slice_to n s ++ rest /\ starts_at_boundary rest.
Proof.
  revert n. induction s as [| c r IH]; intros n; simpl.
  - exists "". split; [reflexivity | exact I].
  - destruct (is_continuation_byte c) eqn:Hc.
    + destruct (IH n) as (rest & Hrest & Hb). exists rest. split; [| exact Hb].
      change (String c r = String c (str_slice_to n r ++ rest)).
      f_equal. exact Hrest.
    + destruct n as [| n'].
      * exists (String c r). split; [reflexivity | exact Hc].
      * destruct (IH n') as (rest & Hrest & Hb). exists rest.
        split; [| exact Hb].
        change (String c r = String c (str_slice_to n' r ++ rest)).
        f_equal. exact Hrest.
Qed.

Lemma str_slice_to_len (n : nat) (s : string) :
  str_len (str_slice_to n s) = Nat.min n (str_len s).
Proof.
  revert n. induction s as [| c r IH]; intros n; simpl; [lia |].
  destruct (is_continuation_byte c) eqn:Hc; simpl.
  - rewrite Hc. apply IH.
  - destruct n as [| n']; simpl; [reflexivity |].
    rewrite Hc, IH. reflexivity.
Qed.

Lemma str_slice_to_all (n : nat) (s : string) :
  str_len s <= n -> str_slice_to n s = s.
Proof.
  revert n. induction s as [| c r IH]; intros n; simpl; [reflexivity |].
  destruct (is_continuation_byte c); intros Hlen.
  - rewrite IH by exact Hlen. reflexivity.
  - destruct n as [| n']; [lia |].
    rewrite IH by lia. reflexivity.
Qed.

Lemma listed_handle_Some (w : World) (db : Database) :
  listed_handle w = Some db ->
  import_db w = Return (Some db)
  /\ forall e : exception, db_name db <> AttributeRaises e.
Proof.
  unfold listed_handle.
  destruct (import_db w) as [[db' |] | e]; try discriminate.
  destruct (db_name db') as [| v | e] eqn:Hname; try discriminate;
    injection 1 as <-; rewrite Hname; split; (reflexivity || discriminate).
Qed.

(** X6: when the handler calls the listing and it raises an instance of
    Exception whose str returns [msg], [database] is
    "⚠️  Connected but Error: " followed by [msg[:50]]: the text reported is
    the prefix of [msg] that ends between two characters and holds
    min(50, len(msg)) of them, the whole of [msg] when that has at most
    50. *)
Theorem test_database_error_text_cut
    (w : World) (db : Database) (e : exception) (msg : string) :
  listed_handle w = Some db ->
  list_collection_names db = Raise e ->
  isinstance_Exception e = true ->
  exception_str e = Return msg ->
  exists (response : gmap string value) (text rest : string),
    test_database w = Return response
    /\ response !! "database"
       = Some (VStr ("⚠️  Connected but Error: " ++ text))
    /\ msg = text ++ rest
    /\ starts_at_boundary rest
    /\ str_len text = Nat.min 50 (str_len msg)
    /\ (str_len msg <= 50 -> text = msg).
Proof.
  intros Hdb Hlist Hinst Hstr.
  destruct (listed_handle_Some w db Hdb) as [Himp Hname].
  assert (Hreport : database_report w
                    = Some ("⚠️  Connected but Error: " ++ str_slice_to 50 msg)).
  { unfold database_report. rewrite Himp.
    destruct (db_name db) as [| v | e'];
      [| | destruct (Hname e' eq_refl)];
      rewrite Hlist, Hinst, Hstr; reflexivity. }
  pose proof (test_database_outcome w) as Hout.
  destruct (test_database w) as [response | e0];
    [| destruct Hout as [_ Hnone]; congruence].
  destruct Hout as (r0 & d & -> & Hd & _ & _ & Hdatabase & _).
  destruct (str_slice_to_split 50 msg) as (rest & Hrest & Hboundary).
  eexists. exists (str_slice_to 50 msg), rest.
  split; [reflexivity |].
  rewrite !lookup_insert_ne by discriminate.
  split; [rewrite Hdatabase; congruence |].
  split; [exact Hrest |].
  split; [exact Hboundary |].
  split; [apply str_slice_to_len | apply str_slice_to_all].
Qed.

Lemma test_database_error_text_cut_example :
  let msg :=
    "localhost:27017: [Errno 111] Connection refused (configured timeouts: 20.0s)" in
  let db := {| db_name := AttributeMissing;
               list_collection_names := Raise (Exception msg) |} in
  exists (response : gmap string value) (text : string),
    test_database {| environ := ∅; import_db := Return (Some db) |}
    = Return response
    /\ response !! "database"
       = Some (VStr ("⚠️  Connected but Error: " ++ text))
    /\ str_len text = 50
    /\ text = "localhost:27017: [Errno 111] Connection refused (c".
Proof.
  cbv zeta.
  match goal with
  | |- context [test_database {| environ := ?env;
                                 import_db := Return (Some ?db) |}] =>
      destruct (test_database_error_text_cut
                  {| environ := env; import_db := Return (Some db) |} db
                  _ _ eq_refl eq_refl eq_refl eq_refl)
        as (response & text & rest & Hrun & Hdatabase & Hsplit & Hb & Hlen & _)
  end.
  exists response, text. split; [exact Hrun |]. split; [exact Hdatabase |].
  split; [exact Hlen |].
  clear Hrun Hdatabase.
  repeat (destruct text as [| ? text];
          [ try discriminate Hlen; try discriminate Hsplit
          | simpl in Hlen; injection Hsplit as <- Hsplit;
            simpl in Hlen ]).
  all: try discriminate.
  all: reflexivity.
Defined.

(** X7: when the handler calls the listing and it returns, [collections] is
    a prefix of it that holds min(10, len) names: all of them when there are
    at most 10, and exactly 10 otherwise. *)
Theorem test_database_collections_prefix
    (w : World) (db : Database) (names : list string) :
  listed_handle w = Some db ->
  list_collection_names db = Return names ->
  exists (response : gmap string value) (l : list string),
    test_database w = Return response
    /\ response !! "collections" = Some (VList l)
    /\ l `prefix_of` names
    /\ List.length l = Nat.min 10 (List.length names)
    /\ (List.length names <= 10 -> l = names).
Proof.
  intros Hdb Hlist.
  assert (Hreport : database_report w = Some "✅ Connected & Working").
  { apply database_report_working. eauto. }
  pose proof (test_database_outcome w) as Hout.
  destruct (test_database w) as [response | e0];
    [| destruct Hout as [_ Hnone]; congruence].
  destruct Hout as (r0 & d & -> & _ & _ & _ & _ & Hcollections & _).
  eexists. exists (take 10 names).
  split; [reflexivity |].
  rewrite !lookup_insert_ne by discriminate. rewrite Hcollections.
  unfold collections_report. rewrite Hdb, Hlist.
  split; [reflexivity |].
  split; [apply prefix_take |].
  split; [apply length_take |].
  intros Hlen. apply take_ge. exact Hlen.
Qed.

Lemma test_database_collections_prefix_example :
  let db := {| db_name := AttributeValue (VStr "portfolio");
               list_collection_names := Return ["users"; "posts"] |} in
  exists (response : gmap string value) (l : list string),
    test_database {| environ := ∅; import_db := Return (Some db) |}
    = Return response
    /\ response !! "collections" = Some (VList l)
    /\ l `prefix_of` ["users"; "posts"]
    /\ List.length l = Nat.min 10 (List.length ["users"; "posts"])
    /\ (List.length ["users"; "posts"] <= 10 -> l = ["users"; "posts"]).
Proof.
  cbv zeta.
  match goal with
  | |- context [test_database {| environ := ?env;
                                 import_db := Return (Some ?db) |}] =>
      exact (test_database_collections_prefix
               {| environ := env; import_db := Return (Some db) |} db
               ["users"; "posts"] eq_refl eq_refl)
  end.
Defined.
(** ** The contact route, end to end *)



(** X10: each of the three fields is required: a body that lacks name, email
    or message, or that is not an object at all, is answered 422 and the
    handler does not run. *)
Theorem contact_missing_field_unprocessable
    (str_of_other : json -> option string) (w : World) (body : json)
    (field : string) :
  In field ContactMessage_fields ->
  json_get field body = None ->
  app str_of_other w (POST_api_contact body)
  = {| status := 422; payload := RequestErrors |}.
Proof.
  intros Hfield Hmissing. unfold app, ContactMessage_validate.
  destruct body; try reflexivity.
  destruct Hfield as [<- | [<- | [<- | []]]]; rewrite Hmissing.
  - reflexivity.
  - destruct (validate_str str_of_other (json_get "name" (JObject members)));
      reflexivity.
  - destruct (validate_str str_of_other (json_get "name" (JObject members)));
      [| reflexivity].
    destruct (validate_str str_of_other (json_get "email" (JObject members)));
      reflexivity.
Qed.

Lemma contact_missing_field_unprocessable_no_email :
  app (fun _ => None)
      {| environ := ∅; import_db := Return None |}
      (POST_api_contact
         (JObject [("name", JString "Alice"); ("message", JString "hi")]))
  = {| status := 422; payload := RequestErrors |}.
Proof.
  apply (contact_missing_field_unprocessable _ _ _ "email");
    [right; left; reflexivity | reflexivity].
Defined.


(** ** Status codes *)


